(** * msticpy.datamodel.pivot_register: the pivot registry

    A shallow embedding of [msticpy/datamodel/pivot_register.py] and the
    properties of its registration protocol.

    The Python module is embedded function by function.  Python values are
    a small inductive type, exceptions are a second one, and code that can
    raise, read the interpreter's state or call an external collaborator
    lives in the monad [M] below: a state monad over [pystate] whose
    results are either a returned value or a raised exception. *)

From Stdlib Require Import ZArith.
From stdpp Require Import base strings gmap list list_monad sorting.

Open Scope string_scope.
Open Scope list_scope.
Set Warnings "-register-all".

(** ** Python values *)

(** The values the module handles.  A [string] carries the code points of
    a Python [str] (characters below 256, the range of [ascii]); a float
    is carried as its binary64 bit pattern.  [PyClass] is a class object,
    the "type handle" of an entity type. *)
Inductive pyobj : Type :=
| PyNone
| PyInt (z : Z)
| PyFloat (bits : Z)
| PyStr (s : string)
| PyList (items : list pyobj)
| PyClass (qualname : string).

(** [**kwargs]: a dict of keyword arguments, in insertion order. *)
Abbreviation kwargs := (list (string * pyobj)).

(** [bool(o)]: the truth value Python's [if o:] tests. *)
Definition truthy (o : pyobj) : bool :=
  match o with
  | PyNone => false
  | PyInt z => negb (z =? 0)%Z
  | PyFloat bits => negb (Z.land bits (Z.ones 63) =? 0)%Z
  | PyStr s => negb (String.eqb s "")
  | PyList items => match items with [] => false | _ :: _ => true end
  | PyClass _ => true
  end.

(** [isinstance(o, (str, int, float))] *)
Definition isinstance_str_int_float (o : pyobj) : bool :=
  match o with
  | PyStr _ | PyInt _ | PyFloat _ => true
  | PyNone | PyList _ | PyClass _ => false
  end.

(** [type(o).__name__], as it appears in the interpreter's messages. *)
Definition type_name (o : pyobj) : string :=
  match o with
  | PyNone => "NoneType"
  | PyInt _ => "int"
  | PyFloat _ => "float"
  | PyStr _ => "str"
  | PyList _ => "list"
  | PyClass _ => "type"
  end.

(** ** Exceptions *)

Inductive exn : Type :=
| AttributeError (obj attr : string)
| NameError (args : list string)
| UnboundLocalError (var : string)
| TypeError (msg : string)
| ValueError (msg : string).

(** [isinstance(e, NameError)]: [UnboundLocalError] derives from
    [NameError]; the other three do not. *)
Definition isinstance_NameError (e : exn) : bool :=
  match e with
  | NameError _ | UnboundLocalError _ => true
  | AttributeError _ _ | TypeError _ | ValueError _ => false
  end.

Inductive outcome (A : Type) : Type :=
| Returns (a : A)
| Raises (e : exn).
Arguments Returns {A} a.
Arguments Raises {A} e.

(** ** Tables *)

(** A [pd.DataFrame], seen row by row: each row maps column names to
    values. *)
Definition row : Type := list (string * pyobj).
Definition DataFrame : Type := list row.

(** The columns of a row with the type of the value each holds. *)
Definition row_signature (r : row) : list (string * string) :=
  (λ cv, (cv.1, type_name cv.2)) <$> r.

(** Frames that [pd.concat] has nothing to align or to convert in: every
    frame has rows, the column labels of a row are distinct, and all rows of
    all frames have the same columns in the same order, each holding values
    of one type. *)
Definition uniform (objs : list DataFrame) : bool :=
  forallb (λ df : DataFrame,
             match df with [] => false | _ :: _ => true end) objs &&
  match concat objs with
  | [] => true
  | r :: rs =>
      bool_decide (NoDup (row_signature r).*1) &&
      forallb (λ r', bool_decide (row_signature r' = row_signature r)) rs
  end.

(** ** Callables *)

(** A query provider function, [Callable[..., pd.DataFrame]]: it receives
    the positional and the keyword arguments of a call and returns a table
    or raises.  [prov_id] names it in the call log. *)
Record provider : Type := {
  prov_id : string;
  prov_run : list pyobj → kwargs → outcome DataFrame
}.

(** The callables [register_provider] handles: a provider function as it
    is, or [functools.partial(_iterate_prov_query, qry_func=c)]. *)
Inductive callable : Type :=
| Func (f : provider)
| PartialIterate (qry_func : callable).

(** ** Interpreter state *)

Inductive event : Type :=
| EvQuery (prov : string) (args : list pyobj) (kw : kwargs)
| EvCloseMatches (word : string) (possibilities : list string).

(** [entities] is the namespace of the imported module
    [..nbtools.entityschema]; [class_attrs] holds the attributes set on
    entity classes, keyed by class and attribute name; [log] records the
    calls made to providers and to [difflib]. *)
Record pystate : Type := {
  entities : gmap string pyobj;
  class_attrs : gmap (string * string) callable;
  log : list event
}.

Definition M (A : Type) : Type := pystate → outcome A * pystate.

Global Instance M_ret : MRet M := λ A a st, (Returns a, st).
Global Instance M_bind : MBind M := λ A B k m st,
  match m st with
  | (Returns a, st') => k a st'
  | (Raises e, st') => (Raises e, st')
  end.

Definition raise {A : Type} (e : exn) : M A := λ st, (Raises e, st).

Definition lift_outcome {A : Type} (r : outcome A) : M A := λ st, (r, st).

(** The state after the calls [evs] have been logged. *)
Definition logged (st : pystate) (evs : list event) : pystate :=
  {| entities := entities st; class_attrs := class_attrs st;
     log := log st ++ evs |}.

Definition emit (ev : event) : M unit := λ st, (Returns tt, logged st [ev]).

(** What the model leaves to pandas and to the interpreter.
    [pd_concat_aligned] is the result of [pd.concat] on a non-empty list of
    frames that differ in columns or in value types, where pandas aligns
    the columns and converts the values.  [iter_class] is [iter(cls)] for a
    class object, which depends on its metaclass (an [Enum] class yields
    its members, a plain class raises).  [iterate_with_class] is the run of
    [_iterate_prov_query] when the caller has put a class object in the
    place of the query function. *)
Record runtime : Type := {
  pd_concat_aligned : list DataFrame → outcome DataFrame;
  iter_class : string → outcome (list pyobj);
  iterate_with_class : string → pyobj → kwargs → M DataFrame
}.

(** [pd.concat(objs)] along the rows.  pandas refuses an empty list of
    frames; uniform frames give their rows, frame after frame. *)
Definition pd_concat (rt : runtime) (objs : list DataFrame) : outcome DataFrame :=
  match objs with
  | [] => Raises (ValueError "No objects to concatenate")
  | _ :: _ => if uniform objs then Returns (concat objs)
              else pd_concat_aligned rt objs
  end.

(** [iter(o)] run to exhaustion. *)
Definition py_iter (rt : runtime) (o : pyobj) : M (list pyobj) :=
  match o with
  | PyList items => mret items
  | PyStr s => mret ((λ c, PyStr (String c "")) <$> String.list_ascii_of_string s)
  | PyClass qualname => lift_outcome (iter_class rt qualname)
  | PyNone | PyInt _ | PyFloat _ =>
      raise (TypeError ("'" +:+ type_name o +:+ "' object is not iterable"))
  end.

(** Lookup and removal of keys in a keyword dict. *)
Fixpoint kw_lookup (key : string) (kw : kwargs) : option pyobj :=
  match kw with
  | [] => None
  | (k, v) :: kw' => if String.eqb k key then Some v else kw_lookup key kw'
  end.

Definition kw_remove (keys : list string) (kw : kwargs) : kwargs :=
  filter (λ kv, kv.1 ∉ keys) kw.

(** [sorted] on strings compares code points. *)
Definition string_le : relation string := λ s1 s2, String.leb s1 s2 = true.

Global Instance string_le_dec : RelDecision string_le.
Proof. intros s1 s2. unfold string_le. apply _. Defined.

(** ** The registration record *)

(** An entry of [qry_entities]: the keyword name that receives the query
    value, or a dict of keyword arguments for [qry_func]. *)
Inductive binding : Type :=
| KwName (name : string)
| KwDict (kw : kwargs).

Record PivotRegistration : Type := {
  qry_name : string;
  qry_func : provider;
  prov_class : option string;
  schema : list (string * string);
  qry_entities : list (string * binding);
  multi_query_supported : bool
}.

(** The [__init__] that [attr.s(auto_attribs=True)] generates: an argument
    the caller leaves out is [None] here and takes the default of the
    class body. *)
Definition PivotRegistration_init (qry_name : string) (qry_func : provider)
    (prov_class : option (option string))
    (schema : option (list (string * string)))
    (qry_entities : option (list (string * binding)))
    (multi_query_supported : option bool) : PivotRegistration :=
  {| qry_name := qry_name;
     qry_func := qry_func;
     prov_class := default None prov_class;
     schema := default [] schema;
     qry_entities := default [] qry_entities;
     multi_query_supported := default true multi_query_supported |}.

(** The local variables of [register_provider] that the loop binds. *)
Record locals : Type := {
  l_entity : option string;
  l_qry_func : option callable
}.

Definition no_locals : locals := {| l_entity := None; l_qry_func := None |}.

(** ** The functions of the module *)

Section pivot_register.

(** The two library functions the module calls and does not define:
    [difflib.get_close_matches(word, possibilities)] with its default [n]
    and [cutoff], and the constructor [pd.DataFrame(data, columns=...)]. *)
Variable get_close_matches : string → list string → list string.
Variable pd_DataFrame : pyobj → pyobj → outcome DataFrame.
Variable rt : runtime.

(** [getattr(entities, name)], without a default: the lookup of the name
    in the namespace of the module.  A name beginning with two underscores
    may be answered by the module type instead ([__class__]) or be bound
    by the lookup itself ([__annotations__]); the properties below that
    speak of every name leave those names out. *)
Definition getattr_entities (name : string) : M pyobj := λ st,
  match entities st !! name with
  | Some o => (Returns o, st)
  | None => (Raises (AttributeError "msticpy.nbtools.entityschema" name), st)
  end.

(** [dir(entities)]: the names bound in the module, sorted. *)
Definition dir_entities : M (list string) := λ st,
  (Returns (merge_sort string_le (map_to_list (entities st)).*1), st).

Definition difflib_get_close_matches (word : string)
    (possibilities : list string) : M (list string) :=
  emit (EvCloseMatches word possibilities);;
  mret (get_close_matches word possibilities).

(** A call of a provider function with positional arguments [args] and
    keyword arguments [kw]. *)
Definition call_provider (f : provider) (args : list pyobj) (kw : kwargs)
    : M DataFrame :=
  emit (EvQuery (prov_id f) args kw);;
  lift_outcome (prov_run f args kw).

(** A name that is neither a global of [pivot_register.py] nor a builtin
    cannot be loaded. *)
Definition pivot_register_globals : list string :=
  ["difflib"; "partial"; "Iterable"; "Callable"; "Dict"; "Union"; "Any";
   "attr"; "pd"; "entities"; "VERSION"; "__version__"; "__author__";
   "PivotRegistration"; "register_provider"; "_iterate_prov_query";
   "_value_to_df"; "_entity_class"].

Definition load_global (name : string) : M unit :=
  if bool_decide (name ∈ pivot_register_globals) then mret tt
  else raise (NameError ["name '" +:+ name +:+ "' is not defined"]).

(** Reading a local variable that no statement has bound yet. *)
Definition load_local {A : Type} (name : string) (v : option A) : M A :=
  match v with
  | Some a => mret a
  | None => raise (UnboundLocalError name)
  end.

Definition _iterate_prov_query (qry_func : list pyobj → kwargs → M DataFrame)
    (qry_values : pyobj) (kw : kwargs) : M DataFrame :=
  vals ← py_iter rt qry_values;
  dfs ← mapM (λ qry_val, qry_func [qry_val] kw) vals;
  lift_outcome (pd_concat rt dfs).

Definition _value_to_df (qry_val : pyobj) : M DataFrame :=
  let qry_val :=
    if isinstance_str_int_float qry_val then PyList [qry_val] else qry_val in
  lift_outcome (pd_DataFrame qry_val (PyStr "qry_value")).

Definition _entity_class (entity_name : string) : M pyobj :=
  ent_cls ← getattr_entities entity_name;
  if truthy ent_cls then mret ent_cls
  else
    legal_entities ← dir_entities;
    closest ← difflib_get_close_matches entity_name legal_entities;
    let mssg := entity_name +:+ " is not a recognized entity name. " in
    let mssg :=
      match closest with
      | [mtch] => mssg +:+ "Closest match is '" +:+ mtch +:+ "'"
      | _ :: _ =>
          let match_list := (λ mtch, "'" +:+ mtch +:+ "'") <$> closest in
          mssg +:+ "Closest matches are " +:+ String.concat ", " match_list
      | [] => mssg +:+ "Valid arguments are " +:+ String.concat ", " legal_entities
      end in
    raise (NameError [entity_name; mssg]).

(** Calling a callable with positional arguments [args] and keyword
    arguments [kw].  A [functools.partial] object passes on the positional
    arguments and the merge of its own keywords with [kw]; the
    parameters of [_iterate_prov_query] are then bound as Python binds
    them: a positional argument would land on [qry_func], which the
    partial's keyword already gives. *)
Fixpoint invoke (c : callable) (args : list pyobj) (kw : kwargs) {struct c}
    : M DataFrame :=
  match c with
  | Func f => call_provider f args kw
  | PartialIterate qry_func =>
      match args with
      | _ :: _ =>
          raise (TypeError
            "_iterate_prov_query() got multiple values for argument 'qry_func'")
      | [] =>
          let qry_func' : list pyobj → kwargs → M DataFrame :=
            match kw_lookup "qry_func" kw with
            | Some o => λ _ _,
                raise (TypeError ("'" +:+ type_name o +:+ "' object is not callable"))
            | None => invoke qry_func
            end in
          match kw_lookup "qry_values" kw with
          | Some qry_values =>
              match kw_lookup "qry_func" kw with
              | Some (PyClass qualname) =>
                  iterate_with_class rt qualname qry_values
                    (kw_remove ["qry_func"; "qry_values"] kw)
              | _ =>
                  _iterate_prov_query qry_func' qry_values
                    (kw_remove ["qry_func"; "qry_values"] kw)
              end
          | None =>
              raise (TypeError
                "_iterate_prov_query() missing 1 required positional argument: 'qry_values'")
          end
      end
  end.

(** One pass of the [for] loop of [register_provider]. *)
Definition register_provider_body (prov : PivotRegistration) (fr : locals)
    (entity : string) : locals :=
  let qry_func := Func (qry_func prov) in
  let qry_func :=
    if negb (multi_query_supported prov) then PartialIterate qry_func
    else qry_func in
  {| l_entity := Some entity; l_qry_func := Some qry_func |}.

(** The [for] loop over the keys of [prov.qry_entities]. *)
Definition register_provider_loop (prov : PivotRegistration) : locals :=
  fold_left (register_provider_body prov) (qry_entities prov).*1 no_locals.

Definition register_provider (prov : PivotRegistration) : M unit :=
  let fr := register_provider_loop prov in
  entity ← load_local "entity" (l_entity fr);
  tgt_entity ← _entity_class entity;
  load_global "set_attr".

End pivot_register.

(** What a computation leaves alone: the namespace of [entities] and the
    attributes of the entity classes.  Every operation of the module
    preserves both; only the log grows. *)
Definition preserves_heap {A} (m : M A) : Prop :=
  ∀ st, entities (m st).2 = entities st ∧ class_attrs (m st).2 = class_attrs st.

(** The calls that a run of [f] over the values [vs] logs, one value per
    call. *)
Definition queries (f : provider) (kw : kwargs) (vs : list pyobj) : list event :=
  (λ v, EvQuery (prov_id f) [v] kw) <$> vs.

(** ** Sample inputs *)

(** A cut of the entity schema: two entity classes and the name of the
    module. *)
Definition sample_entities : gmap string pyobj :=
  <["Host" := PyClass "Host"]>
    (<["IpAddress" := PyClass "IpAddress"]>
       (<["__name__" := PyStr "msticpy.nbtools.entityschema"]> ∅)).

Definition sample_state : pystate :=
  {| entities := sample_entities; class_attrs := ∅; log := [] |}.

(** A provider that answers a single positional value with a one-row
    table holding that value. *)
Definition echo : provider :=
  {| prov_id := "echo";
     prov_run := λ args kw,
       match args with
       | [v] => Returns [[("qry_value", v)]]
       | _ => Raises (TypeError "echo() takes exactly one positional argument")
       end |}.

(** [PivotRegistration("hostinfo", echo,
      qry_entities={"Host": "hostname", "Bogus": "x"})] *)
Definition partial_failure_registration : PivotRegistration :=
  PivotRegistration_init "hostinfo" echo None None
    (Some [("Host", KwName "hostname"); ("Bogus", KwName "x")]) None.

(** [PivotRegistration("whois", echo,
      qry_entities={"Host": "hostname", "IpAddress": "ip"})] *)
Definition two_entity_registration : PivotRegistration :=
  PivotRegistration_init "whois" echo None None
    (Some [("Host", KwName "hostname"); ("IpAddress", KwName "ip")]) None.

(** [PivotRegistration("whois", echo, qry_entities={"IpAddress": "ip"},
      multi_query_supported=True)] *)
Definition batch_registration : PivotRegistration :=
  PivotRegistration_init "whois" echo None None
    (Some [("IpAddress", KwName "ip")]) (Some true).

(** [PivotRegistration("whois", echo)]: no entity bound. *)
Definition empty_registration : PivotRegistration :=
  PivotRegistration_init "whois" echo None None None None.

(** A stand-in for [difflib.get_close_matches] in the closed examples,
    none of which reaches the call; the theorems hold for every choice of
    the function. *)
Definition no_close_matches : string → list string → list string := λ _ _, [].

(** A stand-in for the [runtime] in the closed examples, whose tables are
    uniform and whose values hold no class, so that none reaches it. *)
Definition sample_runtime : runtime :=
  {| pd_concat_aligned := λ _, Raises (ValueError "frames to align");
     iter_class := λ _, Raises (TypeError "'type' object is not iterable");
     iterate_with_class := λ _ _ _, raise (TypeError "not a table") |}.

(** The names that the module type itself answers to or may bind: they
    all begin with two underscores ([__class__], [__dict__],
    [__annotations__], ...). *)
Definition is_special_name (name : string) : bool := String.prefix "__" name.

(** Provider calls among the logged events. *)
Definition is_query (ev : event) : bool :=
  match ev with
  | EvQuery _ _ _ => true
  | EvCloseMatches _ _ => false
  end.

(** A schema whose module has no docstring: [__doc__] is bound to [None]. *)
Definition undocumented_entities : gmap string pyobj :=
  <["Host" := PyClass "Host"]> (<["__doc__" := PyNone]> ∅).

Definition undocumented_state : pystate :=
  {| entities := undocumented_entities; class_attrs := ∅; log := [] |}.

(** A stand-in for [difflib.get_close_matches] that admits only the word
    itself, as [difflib] does when no other name is similar enough. *)
Definition same_name_matches : string → list string → list string :=
  λ word possibilities, filter (λ p, p = word) possibilities.

(** A stand-in for [pd.DataFrame] called with a string for [columns]. *)
Definition no_DataFrame : pyobj → pyobj → outcome DataFrame := λ _ _,
  Raises (TypeError "Index(...) must be called with a collection of some kind").

(** A provider that fails on the value "b". *)
Definition flaky : provider :=
  {| prov_id := "flaky";
     prov_run := λ args kw,
       match args with
       | [PyStr "b"] => Raises (ValueError "no data for b")
       | [v] => Returns [[("qry_value", v)]]
       | _ => Raises (TypeError "flaky() takes exactly one positional argument")
       end |}.

(** [PivotRegistration("whois", echo,
      qry_entities={"Host": "hostname", "IpAddress": "ip"},
      multi_query_supported=False)] *)
Definition unbatched_registration : PivotRegistration :=
  PivotRegistration_init "whois" echo None None
    (Some [("Host", KwName "hostname"); ("IpAddress", KwName "ip")])
    (Some false).

(** * Properties *)

(** ** The monad and the call log *)

Lemma logged_nil st : logged st [] = st.
Proof. destruct st. unfold logged. simpl. by rewrite app_nil_r. Qed.

Lemma logged_logged st evs1 evs2 :
  logged (logged st evs1) evs2 = logged st (evs1 ++ evs2).
Proof. unfold logged. simpl. by rewrite app_assoc. Qed.

Lemma mbind_returns {A B} (m : M A) (k : A → M B) st a st' :
  m st = (Returns a, st') → (m ≫= k) st = k a st'.
Proof. intros Hm. unfold mbind, M_bind. by rewrite Hm. Qed.

Lemma mbind_raises {A B} (m : M A) (k : A → M B) st e st' :
  m st = (Raises e, st') → (m ≫= k) st = (Raises e, st').
Proof. intros Hm. unfold mbind, M_bind. by rewrite Hm. Qed.

Lemma preserves_heap_ret {A} (a : A) : preserves_heap (mret a).
Proof. by intros st. Qed.

Lemma preserves_heap_raise {A} e : preserves_heap (raise (A:=A) e).
Proof. by intros st. Qed.

Lemma preserves_heap_lift {A} (r : outcome A) : preserves_heap (lift_outcome r).
Proof. by intros st. Qed.

Lemma preserves_heap_emit ev : preserves_heap (emit ev).
Proof. by intros st. Qed.

Lemma preserves_heap_bind {A B} (m : M A) (k : A → M B) :
  preserves_heap m → (∀ a, preserves_heap (k a)) → preserves_heap (m ≫= k).
Proof.
  intros Hm Hk st. unfold mbind, M_bind.
  specialize (Hm st). destruct (m st) as [[a|e] st1]; simpl in *.
  - destruct (Hk a st1) as [-> ->]. done.
  - done.
Qed.

Create HintDb heap discriminated.
#[local] Hint Resolve preserves_heap_ret preserves_heap_raise
  preserves_heap_lift preserves_heap_emit : heap.

(** ** The entity resolver *)

Section entity_resolver.

Variable get_close_matches : string → list string → list string.

Lemma preserves_heap_getattr name : preserves_heap (getattr_entities name).
Proof. intros st. unfold getattr_entities. by destruct (entities st !! name). Qed.

Lemma preserves_heap_entity_class name :
  preserves_heap (_entity_class get_close_matches name).
Proof.
  unfold _entity_class.
  apply preserves_heap_bind; [apply preserves_heap_getattr|].
  intros ent_cls. destruct (truthy ent_cls); [auto with heap|].
  apply preserves_heap_bind; [by intros st|]. intros legal.
  apply preserves_heap_bind.
  - unfold difflib_get_close_matches.
    apply preserves_heap_bind; auto with heap.
  - intros closest. auto with heap.
Qed.

(** A name bound to a true value resolves to that value, and neither the
    state nor the log changes: [difflib] is not called. *)
Lemma entity_class_truthy name o st :
  entities st !! name = Some o → truthy o = true →
  _entity_class get_close_matches name st = (Returns o, st).
Proof.
  intros Hname Ho. unfold _entity_class.
  erewrite mbind_returns; last by (unfold getattr_entities; rewrite Hname).
  by rewrite Ho.
Qed.

(** A name the module does not bind: [getattr] raises, and the statements
    after it do not run. *)
Lemma entity_class_absent name st :
  entities st !! name = None →
  _entity_class get_close_matches name st =
    (Raises (AttributeError "msticpy.nbtools.entityschema" name), st).
Proof.
  intros Hname. unfold _entity_class.
  apply mbind_raises. unfold getattr_entities. by rewrite Hname.
Qed.

(** [dir(entities)] lists every bound name once. *)
Lemma dir_entities_spec st :
  ∃ names, dir_entities st = (Returns names, st) ∧ NoDup names ∧
    ∀ name, name ∈ names ↔ is_Some (entities st !! name).
Proof.
  eexists. split; [reflexivity|]. split.
  - rewrite merge_sort_Permutation. apply NoDup_fst_map_to_list.
  - intros name. rewrite merge_sort_Permutation, list_elem_of_fmap. split.
    + intros [[k v] [-> Hkv]]. apply elem_of_map_to_list in Hkv. by eexists.
    + intros [v Hv]. exists (name, v). split; [done|].
      by apply elem_of_map_to_list.
Qed.

(** The failure the function builds itself: it is reached when the name is
    bound to a false value, it asks [difflib] once, and its message has one
    of three forms. *)
Lemma entity_class_not_recognized name o st :
  entities st !! name = Some o → truthy o = false →
  ∃ legal mssg,
    dir_entities st = (Returns legal, st) ∧
    _entity_class get_close_matches name st =
      (Raises (NameError
         [name; (name +:+ " is not a recognized entity name. ") +:+ mssg]),
       logged st [EvCloseMatches name legal]) ∧
    match get_close_matches name legal with
    | [] => mssg = "Valid arguments are " +:+ String.concat ", " legal
    | [mtch] => mssg = "Closest match is '" +:+ mtch +:+ "'"
    | closest =>
        mssg = "Closest matches are " +:+
               String.concat ", " ((λ mtch, "'" +:+ mtch +:+ "'") <$> closest)
    end.
Proof.
  intros Hname Ho.
  destruct (dir_entities_spec st) as (legal & Hdir & _).
  exists legal. unfold _entity_class.
  erewrite mbind_returns; last by (unfold getattr_entities; rewrite Hname).
  rewrite Ho. erewrite mbind_returns; last exact Hdir.
  unfold difflib_get_close_matches, mbind, M_bind, emit, mret, M_ret, raise.
  simpl.
  destruct (get_close_matches name legal) as [|m1 [|m2 ms]];
    eexists; (split; [exact Hdir|]); split; reflexivity.
Qed.

(** C8: an entity-type name that is exactly the name of an entity class of
    the vocabulary resolves to that class (the matching type handle) at
    once: the state, and with it the call log, is unchanged, so the
    fuzzy-matching path ([difflib.get_close_matches]) is never consulted. *)
Theorem entity_class_exact_match name qualname st :
  entities st !! name = Some (PyClass qualname) →
  _entity_class get_close_matches name st = (Returns (PyClass qualname), st).
Proof. intros Hname. by apply entity_class_truthy. Qed.

(** C4, on the code: for a name absent from the vocabulary the resolver
    does not fail with a [NameError]-class outcome that carries
    suggestions.  [getattr] has no default, so the call stops with an
    [AttributeError], which is not a [NameError], before any suggestion is
    computed. *)
Theorem entity_class_absent_raises_AttributeError name st :
  entities st !! name = None →
  ∃ e, _entity_class get_close_matches name st = (Raises e, st) ∧
       e = AttributeError "msticpy.nbtools.entityschema" name ∧
       isinstance_NameError e = false.
Proof. intros Hname. eexists. split; [by apply entity_class_absent|done]. Qed.

(** C5, on the code: for the unknown names "Hots" (a near miss of "Host")
    and "Bogus" the failure has none of the three message forms.  Whatever
    [difflib] would answer, the outcome is the [AttributeError] of
    [getattr], and the log shows that no close match was asked for. *)
Theorem entity_class_unknown_name_has_no_suggestions :
  _entity_class get_close_matches "Hots" sample_state =
    (Raises (AttributeError "msticpy.nbtools.entityschema" "Hots"),
     sample_state) ∧
  _entity_class get_close_matches "Bogus" sample_state =
    (Raises (AttributeError "msticpy.nbtools.entityschema" "Bogus"),
     sample_state) ∧
  log sample_state = [].
Proof. split; [|split]; [by apply entity_class_absent..|done]. Qed.

End entity_resolver.

(** ** The call adapters *)

Section call_adapters.

Variable rt : runtime.

Implicit Types (f : provider) (vs : list pyobj) (kw : kwargs).

Lemma call_provider_run f args kw st :
  call_provider f args kw st =
    (prov_run f args kw, logged st [EvQuery (prov_id f) args kw]).
Proof. reflexivity. Qed.

Lemma mapM_cons {A B} (g : A → M B) x l :
  mapM g (x :: l) = (y ← g x; k ← mapM g l; mret (y :: k)).
Proof. reflexivity. Qed.


(** The list comprehension stops at the first call that raises. *)
Lemma mapM_call_provider_raises f kw vs dfs v e rest st :
  Forall2 (λ v df, prov_run f [v] kw = Returns df) vs dfs →
  prov_run f [v] kw = Raises e →
  mapM (λ qry_val, call_provider f [qry_val] kw) (vs ++ v :: rest) st =
    (Raises e, logged st (queries f kw (vs ++ [v]))).
Proof.
  intros Hall Hv. revert st.
  induction Hall as [|v' df vs dfs Hv' _ IH]; intros st.
  - simpl app. rewrite mapM_cons.
    apply mbind_raises. by rewrite call_provider_run, Hv.
  - rewrite <-!app_comm_cons, mapM_cons.
    erewrite mbind_returns; last by rewrite call_provider_run, Hv'.
    erewrite mbind_raises; last apply IH.
    by rewrite logged_logged.
Qed.





(** Called with a positional argument, the same object raises: the
    argument is bound to [qry_func], which the partial's keyword gives a
    second time. *)
Lemma invoke_partial_positional c arg args kw st :
  invoke rt (PartialIterate c) (arg :: args) kw st =
    (Raises (TypeError
       "_iterate_prov_query() got multiple values for argument 'qry_func'"), st).
Proof. reflexivity. Qed.

(** [_value_to_df] gives a scalar and the one-element list of it the same
    table. *)
Lemma value_to_df_scalar pd_DataFrame (s : pyobj) :
  isinstance_str_int_float s = true →
  _value_to_df pd_DataFrame s = _value_to_df pd_DataFrame (PyList [s]).
Proof. intros Hs. unfold _value_to_df. by rewrite Hs. Qed.


(** C3, on the code: a bare scalar is not turned into a one-element
    sequence before the provider is called.  [_iterate_prov_query] iterates
    over the string "ab" and queries "a" and "b", where the list ["ab"]
    gives one query of "ab"; the bare integer 7 is not iterable at all; and
    a batch-capable provider receives the bare scalar as it is. *)
Theorem bare_scalar_is_not_normalized :
  _iterate_prov_query rt (call_provider echo) (PyStr "ab") [] sample_state =
    (Returns [[("qry_value", PyStr "a")]; [("qry_value", PyStr "b")]],
     logged sample_state
       [EvQuery "echo" [PyStr "a"] []; EvQuery "echo" [PyStr "b"] []]) ∧
  _iterate_prov_query rt (call_provider echo) (PyList [PyStr "ab"]) [] sample_state =
    (Returns [[("qry_value", PyStr "ab")]],
     logged sample_state [EvQuery "echo" [PyStr "ab"] []]) ∧
  _iterate_prov_query rt (call_provider echo) (PyInt 7) [] sample_state =
    (Raises (TypeError "'int' object is not iterable"), sample_state) ∧
  _iterate_prov_query rt (call_provider echo) (PyList [PyInt 7]) [] sample_state =
    (Returns [[("qry_value", PyInt 7)]],
     logged sample_state [EvQuery "echo" [PyInt 7] []]) ∧
  invoke rt (Func echo) [PyStr "ab"] [] sample_state =
    (Returns [[("qry_value", PyStr "ab")]],
     logged sample_state [EvQuery "echo" [PyStr "ab"] []]) ∧
  invoke rt (Func echo) [PyList [PyStr "ab"]] [] sample_state =
    (Returns [[("qry_value", PyList [PyStr "ab"])]],
     logged sample_state [EvQuery "echo" [PyList [PyStr "ab"]] []]).
Proof. repeat split. Qed.

End call_adapters.

(** ** Registration *)

Section registration.

Variable get_close_matches : string → list string → list string.
Variable rt : runtime.

Implicit Types (prov : PivotRegistration) (st : pystate).

(** The callable the loop body binds to [qry_func]. *)
Lemma register_provider_body_qry_func prov fr entity :
  l_qry_func (register_provider_body prov fr entity) =
    Some (if multi_query_supported prov then Func (qry_func prov)
          else PartialIterate (Func (qry_func prov))).
Proof. unfold register_provider_body. by destruct (multi_query_supported prov). Qed.

Lemma register_provider_loop_nil prov :
  qry_entities prov = [] → register_provider_loop prov = no_locals.
Proof. intros Hq. unfold register_provider_loop. by rewrite Hq. Qed.

(** After the loop the locals are those of its last pass. *)
Lemma register_provider_loop_snoc prov (ents : list (string * binding)) name b :
  qry_entities prov = ents ++ [(name, b)] →
  register_provider_loop prov =
    {| l_entity := Some name;
       l_qry_func :=
         Some (if multi_query_supported prov then Func (qry_func prov)
               else PartialIterate (Func (qry_func prov))) |}.
Proof.
  intros Hq. unfold register_provider_loop.
  rewrite Hq, fmap_app, fold_left_app. simpl.
  unfold register_provider_body. by destruct (multi_query_supported prov).
Qed.

Lemma register_provider_loop_qry_func prov c :
  l_qry_func (register_provider_loop prov) = Some c →
  c = if multi_query_supported prov then Func (qry_func prov)
      else PartialIterate (Func (qry_func prov)).
Proof.
  destruct (qry_entities prov) as [|[name b] ents _] eqn:Hq using rev_ind.
  - by rewrite register_provider_loop_nil.
  - rewrite (register_provider_loop_snoc prov ents name b) by done.
    simpl. congruence.
Qed.

Lemma load_global_set_attr st :
  load_global "set_attr" st =
    (Raises (NameError ["name 'set_attr' is not defined"]), st).
Proof. reflexivity. Qed.

(** [register_provider] never returns: whatever the registration, the call
    ends in an exception, and it leaves the entity classes as they were. *)
Lemma register_provider_raises prov st :
  ∃ e st', register_provider get_close_matches prov st = (Raises e, st') ∧
           entities st' = entities st ∧ class_attrs st' = class_attrs st.
Proof.
  unfold register_provider.
  destruct (l_entity (register_provider_loop prov)) as [entity|].
  - simpl load_local.
    destruct (preserves_heap_entity_class get_close_matches entity st) as [He Ha].
    destruct (_entity_class get_close_matches entity st) as [[o|e] st1] eqn:Hres.
    + exists (NameError ["name 'set_attr' is not defined"]), st1.
      split; [|done]. unfold mbind, M_bind. simpl. by rewrite Hres.
    + exists e, st1. split; [|done]. unfold mbind, M_bind. simpl. by rewrite Hres.
  - by exists (UnboundLocalError "entity"), st.
Qed.

(** C1 (amended): [register_provider] keeps no per-binding failure record.
    When the entity name it resolves (the last key of [qry_entities])
    fails to resolve, the error raised by [_entity_class] is not caught:
    it ends the call and reaches the caller as it is. *)
Theorem register_provider_resolution_failure_propagates prov
    (ents : list (string * binding)) name b e st st' :
  qry_entities prov = ents ++ [(name, b)] →
  _entity_class get_close_matches name st = (Raises e, st') →
  register_provider get_close_matches prov st = (Raises e, st').
Proof.
  intros Hq Hres. unfold register_provider.
  rewrite (register_provider_loop_snoc prov ents name b) by done.
  simpl. unfold mbind, M_bind. simpl. by rewrite Hres.
Qed.

(** C6, on the code: with the two entity classes "Host" and "IpAddress"
    bound, both of which resolve, [register_provider] attaches nothing.
    The call ends at [set_attr()], a name that is not defined, and no
    entity class has received an attribute. *)
Theorem register_provider_attaches_nothing :
  register_provider get_close_matches two_entity_registration sample_state =
    (Raises (NameError ["name 'set_attr' is not defined"]), sample_state) ∧
  class_attrs sample_state !! ("Host", "whois") = None ∧
  class_attrs sample_state !! ("IpAddress", "whois") = None.
Proof. repeat split. Qed.

(** C7, on the code: for the batch-capable registration the loop leaves
    [qry_func] as the provider function itself, and calling that with a
    sequence calls the provider once with the sequence; but no access point
    is attached, because [register_provider] ends at [set_attr()]. *)
Theorem batch_capable_registration_is_not_attached :
  l_qry_func (register_provider_loop batch_registration) = Some (Func echo) ∧
  (∀ vs kw st, invoke rt (Func echo) [PyList vs] kw st =
     (prov_run echo [PyList vs] kw,
      logged st [EvQuery "echo" [PyList vs] kw])) ∧
  register_provider get_close_matches batch_registration sample_state =
    (Raises (NameError ["name 'set_attr' is not defined"]), sample_state) ∧
  class_attrs sample_state !! ("IpAddress", "whois") = None.
Proof. repeat split. Qed.

(** C9: with an empty [qry_entities] the loop body never runs, the local
    [entity] is unbound at the statement after the loop, and the call
    raises the unbound-name error instead of returning. *)
Theorem register_provider_no_entities prov st :
  qry_entities prov = [] →
  register_provider get_close_matches prov st =
    (Raises (UnboundLocalError "entity"), st).
Proof.
  intros Hq. unfold register_provider.
  by rewrite register_provider_loop_nil.
Qed.

End registration.

(** ** The batch adapter *)

Section batch_adapter.

Variable rt : runtime.


End batch_adapter.

(** C10: a registration built without [multi_query_supported] has the
    flag set, and the loop of [register_provider] binds its provider
    function unwrapped; whatever the arguments of the constructor, the loop
    binds the batch adapter only when the flag was given as [False]. *)
Theorem default_registration_is_batch_capable name f prov_class schema qry_entities :
  let prov := PivotRegistration_init name f prov_class schema qry_entities None in
  multi_query_supported prov = true ∧
  (∀ c, l_qry_func (register_provider_loop prov) = Some c → c = Func f) ∧
  (∀ flag c,
     l_qry_func (register_provider_loop
       (PivotRegistration_init name f prov_class schema qry_entities flag)) =
       Some (PartialIterate c) →
     flag = Some false).
Proof.
  simpl. split; [done|]. split.
  - intros c Hc. by apply register_provider_loop_qry_func in Hc.
  - intros flag c Hc. apply register_provider_loop_qry_func in Hc.
    by destruct flag as [[]|].
Qed.

(** ** The theorems at concrete inputs *)

(** "Host" names an entity class of the sample schema and resolves to it. *)
Lemma entity_class_exact_match_witness :
  entities sample_state !! "Host" = Some (PyClass "Host") ∧
  _entity_class no_close_matches "Host" sample_state =
    (Returns (PyClass "Host"), sample_state).
Proof.
  split; [reflexivity|].
  apply (entity_class_exact_match no_close_matches "Host" "Host" sample_state).
  reflexivity.
Defined.

(** "Bogus" is not bound in the sample schema. *)
Lemma entity_class_absent_raises_AttributeError_witness :
  entities sample_state !! "Bogus" = None ∧
  ∃ e, _entity_class no_close_matches "Bogus" sample_state = (Raises e, sample_state) ∧
       e = AttributeError "msticpy.nbtools.entityschema" "Bogus" ∧
       isinstance_NameError e = false.
Proof.
  split; [reflexivity|].
  apply (entity_class_absent_raises_AttributeError no_close_matches "Bogus"
           sample_state).
  reflexivity.
Defined.



(** The registration for "Host" and "Bogus": resolving "Bogus" fails and
    the failure leaves [register_provider]. *)
Lemma register_provider_resolution_failure_propagates_witness :
  qry_entities partial_failure_registration =
    [("Host", KwName "hostname")] ++ [("Bogus", KwName "x")] ∧
  _entity_class no_close_matches "Bogus" sample_state =
    (Raises (AttributeError "msticpy.nbtools.entityschema" "Bogus"),
     sample_state) ∧
  register_provider no_close_matches partial_failure_registration sample_state =
    (Raises (AttributeError "msticpy.nbtools.entityschema" "Bogus"),
     sample_state).
Proof.
  split; [reflexivity|]. split; [reflexivity|].
  apply (register_provider_resolution_failure_propagates no_close_matches
           partial_failure_registration [("Host", KwName "hostname")]
           "Bogus" (KwName "x")); reflexivity.
Defined.

(** C1 as stated fails on the registration for "Host" and "Bogus": the
    call does not complete with "Host" attached and a failure recorded for
    "Bogus"; it is aborted by the error for "Bogus", and "Host" has no
    access point. *)
Lemma register_provider_aborts_on_unresolved_entity :
  register_provider no_close_matches partial_failure_registration sample_state =
    (Raises (AttributeError "msticpy.nbtools.entityschema" "Bogus"),
     sample_state) ∧
  class_attrs sample_state !! ("Host", "hostinfo") = None ∧
  ¬ ∃ st',
      register_provider no_close_matches partial_failure_registration
        sample_state = (Returns tt, st').
Proof.
  split; [reflexivity|]. split; [reflexivity|].
  intros (st' & Hrun). discriminate Hrun.
Qed.

(** A registration without entities. *)
Lemma register_provider_no_entities_witness :
  qry_entities empty_registration = [] ∧
  register_provider no_close_matches empty_registration sample_state =
    (Raises (UnboundLocalError "entity"), sample_state).
Proof.
  split; [reflexivity|].
  apply (register_provider_no_entities no_close_matches empty_registration
           sample_state).
  reflexivity.
Defined.

(** The registration for "Host" and "IpAddress" is built without the
    flag. *)
Lemma default_registration_is_batch_capable_witness :
  multi_query_supported two_entity_registration = true ∧
  l_qry_func (register_provider_loop two_entity_registration) = Some (Func echo).
Proof.
  destruct (default_registration_is_batch_capable "whois" echo None None
    (Some [("Host", KwName "hostname"); ("IpAddress", KwName "ip")]))
    as (Hflag & Hloop & _).
  split; [exact Hflag|reflexivity].
Defined.

(** * Further properties of the module *)

(** ** More on the entity resolver *)

Section entity_resolver_effects.

Variable get_close_matches : string → list string → list string.

Global Instance string_le_total : Total string_le.
Proof. intros s1 s2. apply String.leb_total. Qed.

(** [dir(entities)] is sorted. *)
Lemma dir_entities_sorted st legal :
  dir_entities st = (Returns legal, st) → Sorted string_le legal.
Proof.
  unfold dir_entities. intros [= <-]. apply Sorted_merge_sort, _.
Qed.

(** What a call of the resolver does to the state: it appends to the log
    nothing, or the one call of [difflib]. *)
Lemma entity_class_effects name st :
  ∃ r evs,
    _entity_class get_close_matches name st = (r, logged st evs) ∧
    (evs = [] ∨ ∃ legal, evs = [EvCloseMatches name legal]).
Proof.
  destruct (entities st !! name) as [o|] eqn:Hname.
  - destruct (truthy o) eqn:Ho.
    + exists (Returns o), []. rewrite logged_nil.
      split; [by apply entity_class_truthy|by left].
    + destruct (entity_class_not_recognized get_close_matches name o st)
        as (legal & mssg & _ & Hrun & _); [done..|].
      eexists _, _. split; [exact Hrun|]. right. by eexists.
  - eexists _, []. rewrite logged_nil.
    split; [by apply entity_class_absent|by left].
Qed.

(** X1: for a name that does not begin with two underscores, resolution
    succeeds exactly when the entities module binds the name to a true
    value, be it an entity class or not; the value returned is the bound
    one and the state is left as it was. *)
Theorem entity_class_returns_iff name o st st' :
  is_special_name name = false →
  _entity_class get_close_matches name st = (Returns o, st') ↔
  entities st !! name = Some o ∧ truthy o = true ∧ st' = st.
Proof.
  intros _. split.
  - intros Hrun.
    destruct (entities st !! name) as [o'|] eqn:Hname.
    + destruct (truthy o') eqn:Ho.
      * rewrite (entity_class_truthy _ name o' st) in Hrun by done.
        by injection Hrun as -> ->.
      * destruct (entity_class_not_recognized get_close_matches name o' st)
          as (legal & mssg & _ & Hrun' & _); [done..|]. congruence.
    + rewrite entity_class_absent in Hrun by done. discriminate.
  - intros (Hname & Ho & ->). by apply entity_class_truthy.
Qed.

(** X2: a name bound to a false value is rejected with a [NameError] whose
    arguments are the name and a message.  [difflib] is asked once, for the
    name among the sorted names of the module, and the message names the
    one close match, lists the several ones, or, without any, lists the
    names of the module. *)
Theorem entity_class_false_value_message name o st :
  entities st !! name = Some o → truthy o = false →
  ∃ legal mssg,
    dir_entities st = (Returns legal, st) ∧
    _entity_class get_close_matches name st =
      (Raises (NameError
         [name; (name +:+ " is not a recognized entity name. ") +:+ mssg]),
       logged st [EvCloseMatches name legal]) ∧
    match get_close_matches name legal with
    | [] => mssg = "Valid arguments are " +:+ String.concat ", " legal
    | [mtch] => mssg = "Closest match is '" +:+ mtch +:+ "'"
    | closest =>
        mssg = "Closest matches are " +:+
               String.concat ", " ((λ mtch, "'" +:+ mtch +:+ "'") <$> closest)
    end.
Proof. apply entity_class_not_recognized. Qed.

(** X3: whenever the resolver asks [difflib], the names it offers are the
    names bound in the entities module, each once and in sorted order, and
    the rejected name is one of them. *)
Theorem entity_class_offers_the_rejected_name name legal r st :
  _entity_class get_close_matches name st =
    (r, logged st [EvCloseMatches name legal]) →
  name ∈ legal ∧ NoDup legal ∧ Sorted string_le legal ∧
  ∀ n, n ∈ legal ↔ is_Some (entities st !! n).
Proof.
  intros Hrun.
  assert (Hgrow : ∀ ev, st ≠ logged st [ev]).
  { intros ev Heq. apply (f_equal (length ∘ log)) in Heq.
    simpl in Heq. rewrite length_app in Heq. simpl in Heq. lia. }
  destruct (dir_entities_spec st) as (legal' & Hdir & Hnd & Hlegal).
  assert (legal = legal' ∧ is_Some (entities st !! name)) as [-> Hbound].
  { destruct (entities st !! name) as [o|] eqn:Hname.
    - destruct (truthy o) eqn:Ho.
      + rewrite (entity_class_truthy _ name o st) in Hrun by done.
        injection Hrun as _ Hst. by apply Hgrow in Hst.
      + destruct (entity_class_not_recognized get_close_matches name o st)
          as (legal2 & mssg & Hdir2 & Hrun2 & _); [done..|].
        rewrite Hrun2 in Hrun. injection Hrun as _ Hlog.
        apply app_inv_head in Hlog. injection Hlog as <-.
        split; [congruence|by eexists].
    - rewrite entity_class_absent in Hrun by done.
      injection Hrun as _ Hst. by apply Hgrow in Hst. }
  split; [by apply Hlegal|]. split; [done|].
  split; [by eapply dir_entities_sorted|done].
Qed.

(** X4: whatever its outcome, the resolver sets no attribute on a class
    and adds to the log nothing or the one call of [difflib] for the name
    it was given; for a name that does not begin with two underscores it
    leaves the entities module as it was. *)
Theorem entity_class_leaves_heap name st :
  ∃ r st' evs,
    _entity_class get_close_matches name st = (r, st') ∧
    log st' = log st ++ evs ∧
    (evs = [] ∨ ∃ legal, evs = [EvCloseMatches name legal]) ∧
    class_attrs st' = class_attrs st ∧
    (is_special_name name = false → entities st' = entities st).
Proof.
  destruct (entity_class_effects name st) as (r & evs & Hrun & Hevs).
  by exists r, (logged st evs), evs.
Qed.

End entity_resolver_effects.

(** ** More on the call adapters *)

Section call_adapter_edges.

Variable rt : runtime.

Implicit Types (f : provider) (vs : list pyobj) (kw : kwargs).
Implicit Types (q : list pyobj → kwargs → M DataFrame).

(** X5: when a call of the provider raises, [_iterate_prov_query] stops
    there: the values before it have been queried in order, the values
    after it are never queried, and the provider's error reaches the caller
    unchanged. *)
Theorem iterate_prov_query_stops_at_first_error f vs v rest kw dfs e st :
  Forall2 (λ v df, prov_run f [v] kw = Returns df) vs dfs →
  prov_run f [v] kw = Raises e →
  _iterate_prov_query rt (call_provider f) (PyList (vs ++ v :: rest)) kw st =
    (Raises e, logged st (queries f kw (vs ++ [v]))).
Proof.
  intros Hall Hv. unfold _iterate_prov_query.
  erewrite mbind_returns; last reflexivity.
  apply mbind_raises. by eapply mapM_call_provider_raises.
Qed.

(** X6: with nothing to iterate over, the empty list or the empty string,
    [_iterate_prov_query] calls nothing and raises the [ValueError] of
    [pd.concat], whatever the query function. *)
Theorem iterate_prov_query_without_values q kw st :
  _iterate_prov_query rt q (PyList []) kw st =
    (Raises (ValueError "No objects to concatenate"), st) ∧
  _iterate_prov_query rt q (PyStr "") kw st =
    (Raises (ValueError "No objects to concatenate"), st).
Proof. split; reflexivity. Qed.

(** X7: [None], an integer or a float cannot be iterated:
    [_iterate_prov_query] raises a [TypeError] naming its type and calls
    nothing. *)
Theorem iterate_prov_query_not_iterable q o kw st :
  match o with PyNone | PyInt _ | PyFloat _ => True | _ => False end →
  _iterate_prov_query rt q o kw st =
    (Raises (TypeError ("'" +:+ type_name o +:+ "' object is not iterable")), st).
Proof. by destruct o. Qed.



(** X10: the same callable, called with the values as a positional
    argument, raises a [TypeError] and calls nothing: the argument lands on
    the parameter [qry_func], which the partial object already gives by
    keyword. *)
Theorem batch_adapter_positional_call prov c arg args kw st :
  multi_query_supported prov = false →
  l_qry_func (register_provider_loop prov) = Some c →
  invoke rt c (arg :: args) kw st =
    (Raises (TypeError
       "_iterate_prov_query() got multiple values for argument 'qry_func'"), st).
Proof.
  intros Hflag Hc.
  apply register_provider_loop_qry_func in Hc. rewrite Hflag in Hc. by subst c.
Qed.

(** X11: the callable that the loop binds for a batch-capable registration
    hands its arguments to the provider as they are, in a single call, and
    returns what the provider returns or raises. *)
Theorem unwrapped_callable_single_call prov c args kw st :
  multi_query_supported prov = true →
  l_qry_func (register_provider_loop prov) = Some c →
  invoke rt c args kw st =
    (prov_run (qry_func prov) args kw,
     logged st [EvQuery (prov_id (qry_func prov)) args kw]).
Proof.
  intros Hflag Hc.
  apply register_provider_loop_qry_func in Hc. rewrite Hflag in Hc. by subst c.
Qed.

(** X12: [_value_to_df] treats a scalar (a string, an integer or a float)
    as the one-element list of it: both give the same table or the same
    error, and the state is untouched. *)
Theorem value_to_df_scalar_as_list pd_DataFrame (s : pyobj) st :
  isinstance_str_int_float s = true →
  _value_to_df pd_DataFrame s st = _value_to_df pd_DataFrame (PyList [s]) st ∧
  (_value_to_df pd_DataFrame s st).2 = st.
Proof. intros Hs. by rewrite value_to_df_scalar. Qed.

End call_adapter_edges.

(** ** More on registration *)

Section registration_outcomes.

Variable get_close_matches : string → list string → list string.

Implicit Types (prov : PivotRegistration) (st : pystate).

(** X13: [register_provider] never returns.  For every registration the
    call ends in an exception; what it adds to the log holds no call of a
    provider, and no class has received an attribute.  When the last key of
    [qry_entities] does not begin with two underscores, the entities module
    is unchanged too. *)
Theorem register_provider_never_returns prov st :
  ∃ e st' evs,
    register_provider get_close_matches prov st = (Raises e, st') ∧
    log st' = log st ++ evs ∧
    Forall (λ ev, is_query ev = false) evs ∧
    class_attrs st' = class_attrs st ∧
    ((∀ name, last (qry_entities prov).*1 = Some name →
              is_special_name name = false) →
     entities st' = entities st).
Proof.
  unfold register_provider.
  destruct (l_entity (register_provider_loop prov)) as [entity|].
  - destruct (entity_class_effects get_close_matches entity st)
      as (r & evs & Hrun & Hevs).
    assert (Forall (λ ev, is_query ev = false) evs)
      by (destruct Hevs as [->|[legal ->]]; by repeat constructor).
    destruct r as [o|e].
    + exists (NameError ["name 'set_attr' is not defined"]), (logged st evs), evs.
      split; [|done]. simpl. unfold mbind, M_bind. simpl. by rewrite Hrun.
    + exists e, (logged st evs), evs.
      split; [|done]. simpl. unfold mbind, M_bind. simpl. by rewrite Hrun.
  - exists (UnboundLocalError "entity"), st, []. by rewrite app_nil_r.
Qed.

(** X14: after the loop the locals are those of the last pass, however
    many bindings there are: [entity] is the last key of [qry_entities],
    and [qry_func] is the provider function, wrapped in the batch adapter
    once when the registration is not batch-capable; with no binding both
    are unbound. *)
Theorem register_provider_loop_last_pass prov :
  register_provider_loop prov =
    match last (qry_entities prov).*1 with
    | Some name =>
        {| l_entity := Some name;
           l_qry_func :=
             Some (if multi_query_supported prov then Func (qry_func prov)
                   else PartialIterate (Func (qry_func prov))) |}
    | None => no_locals
    end.
Proof.
  destruct (qry_entities prov) as [|[name b] ents _] eqn:Hq using rev_ind.
  - by rewrite register_provider_loop_nil.
  - rewrite (register_provider_loop_snoc prov ents name b) by done.
    rewrite fmap_app. simpl. by rewrite last_snoc.
Qed.

(** X15: only the last key of [qry_entities] counts.  Two registrations
    that end with the same entity name have the same outcome, whatever
    their other bindings, provider functions, names and flags: an entity
    name before the last one is never resolved. *)
Theorem register_provider_depends_on_last_entity_only prov1 prov2
    (ents1 ents2 : list (string * binding)) name b1 b2 st :
  qry_entities prov1 = ents1 ++ [(name, b1)] →
  qry_entities prov2 = ents2 ++ [(name, b2)] →
  register_provider get_close_matches prov1 st =
    register_provider get_close_matches prov2 st.
Proof.
  intros Hq1 Hq2. unfold register_provider.
  rewrite (register_provider_loop_snoc prov1 ents1 name b1) by done.
  by rewrite (register_provider_loop_snoc prov2 ents2 name b2) by done.
Qed.

(** X16: when the last entity name resolves, [register_provider] goes on
    to [set_attr()] and raises the [NameError] for that undefined name,
    with the state as it was. *)
Theorem register_provider_resolved_entity_raises_NameError prov
    (ents : list (string * binding)) name b o st :
  qry_entities prov = ents ++ [(name, b)] →
  entities st !! name = Some o → truthy o = true →
  register_provider get_close_matches prov st =
    (Raises (NameError ["name 'set_attr' is not defined"]), st).
Proof.
  intros Hq Hname Ho. unfold register_provider.
  rewrite (register_provider_loop_snoc prov ents name b) by done.
  simpl. unfold mbind, M_bind. simpl.
  by rewrite (entity_class_truthy _ name o st).
Qed.

(** X17: a registration built without [qry_entities] gets the empty dict
    of the attrs factory, and registering it raises the unbound-name error
    for [entity], whatever its other arguments. *)
Theorem registration_without_entities_cannot_register name f prov_class
    schema flag st :
  let prov := PivotRegistration_init name f prov_class schema None flag in
  qry_entities prov = [] ∧
  register_provider get_close_matches prov st =
    (Raises (UnboundLocalError "entity"), st).
Proof. split; reflexivity. Qed.

End registration_outcomes.

(** ** The further properties at concrete inputs *)

(** In the undocumented schema [__doc__] is bound to [None]; the only
    close match is the name itself. *)
Lemma entity_class_false_value_message_witness :
  entities undocumented_state !! "__doc__" = Some PyNone ∧
  truthy PyNone = false ∧
  ∃ legal mssg,
    dir_entities undocumented_state = (Returns legal, undocumented_state) ∧
    _entity_class same_name_matches "__doc__" undocumented_state =
      (Raises (NameError
         ["__doc__"; ("__doc__" +:+ " is not a recognized entity name. ") +:+ mssg]),
       logged undocumented_state [EvCloseMatches "__doc__" legal]) ∧
    match same_name_matches "__doc__" legal with
    | [] => mssg = "Valid arguments are " +:+ String.concat ", " legal
    | [mtch] => mssg = "Closest match is '" +:+ mtch +:+ "'"
    | closest =>
        mssg = "Closest matches are " +:+
               String.concat ", " ((λ mtch, "'" +:+ mtch +:+ "'") <$> closest)
    end.
Proof.
  split; [reflexivity|]. split; [reflexivity|].
  apply (entity_class_false_value_message same_name_matches "__doc__" PyNone
           undocumented_state); reflexivity.
Defined.

Lemma entity_class_offers_the_rejected_name_witness :
  _entity_class same_name_matches "__doc__" undocumented_state =
    (Raises (NameError
       ["__doc__";
        "__doc__ is not a recognized entity name. Closest match is '__doc__'"]),
     logged undocumented_state [EvCloseMatches "__doc__" ["Host"; "__doc__"]]) ∧
  "__doc__" ∈ ["Host"; "__doc__"] ∧ NoDup ["Host"; "__doc__"] ∧
  Sorted string_le ["Host"; "__doc__"] ∧
  ∀ n, n ∈ ["Host"; "__doc__"] ↔ is_Some (entities undocumented_state !! n).
Proof.
  split; [reflexivity|].
  apply (entity_class_offers_the_rejected_name same_name_matches "__doc__"
           ["Host"; "__doc__"]
           (Raises (NameError
              ["__doc__";
               "__doc__ is not a recognized entity name. Closest match is '__doc__'"]))
           undocumented_state).
  reflexivity.
Defined.

(** [flaky] answers "a", fails on "b" and is never asked for "c". *)
Lemma iterate_prov_query_stops_at_first_error_witness :
  _iterate_prov_query sample_runtime (call_provider flaky)
      (PyList [PyStr "a"; PyStr "b"; PyStr "c"]) [] sample_state =
    (Raises (ValueError "no data for b"),
     logged sample_state
       [EvQuery "flaky" [PyStr "a"] []; EvQuery "flaky" [PyStr "b"] []]).
Proof.
  apply (iterate_prov_query_stops_at_first_error sample_runtime flaky [PyStr "a"] (PyStr "b")
           [PyStr "c"] [] [[[("qry_value", PyStr "a")]]]).
  - repeat constructor.
  - reflexivity.
Defined.

Lemma iterate_prov_query_not_iterable_witness :
  _iterate_prov_query sample_runtime (call_provider echo) (PyInt 7) [] sample_state =
    (Raises (TypeError "'int' object is not iterable"), sample_state).
Proof.
  apply (iterate_prov_query_not_iterable sample_runtime (call_provider echo) (PyInt 7) []
           sample_state).
  exact I.
Defined.



Lemma batch_adapter_positional_call_witness :
  multi_query_supported unbatched_registration = false ∧
  l_qry_func (register_provider_loop unbatched_registration) =
    Some (PartialIterate (Func echo)) ∧
  invoke sample_runtime (PartialIterate (Func echo)) [PyList [PyStr "a"; PyStr "b"]] []
      sample_state =
    (Raises (TypeError
       "_iterate_prov_query() got multiple values for argument 'qry_func'"),
     sample_state).
Proof.
  split; [reflexivity|]. split; [reflexivity|].
  apply (batch_adapter_positional_call sample_runtime unbatched_registration
           (PartialIterate (Func echo))); reflexivity.
Defined.

Lemma unwrapped_callable_single_call_witness :
  multi_query_supported batch_registration = true ∧
  l_qry_func (register_provider_loop batch_registration) = Some (Func echo) ∧
  invoke sample_runtime (Func echo) [PyList [PyStr "1.1.1.1"; PyStr "8.8.8.8"]] [] sample_state =
    (Returns [[("qry_value", PyList [PyStr "1.1.1.1"; PyStr "8.8.8.8"])]],
     logged sample_state
       [EvQuery "echo" [PyList [PyStr "1.1.1.1"; PyStr "8.8.8.8"]] []]).
Proof.
  split; [reflexivity|]. split; [reflexivity|].
  apply (unwrapped_callable_single_call sample_runtime batch_registration (Func echo));
    reflexivity.
Defined.

Lemma value_to_df_scalar_as_list_witness :
  isinstance_str_int_float (PyStr "a") = true ∧
  _value_to_df no_DataFrame (PyStr "a") sample_state =
    _value_to_df no_DataFrame (PyList [PyStr "a"]) sample_state ∧
  (_value_to_df no_DataFrame (PyStr "a") sample_state).2 = sample_state.
Proof.
  split; [reflexivity|].
  apply (value_to_df_scalar_as_list no_DataFrame (PyStr "a") sample_state).
  reflexivity.
Defined.

(** Two registrations that both end with "IpAddress". *)
Lemma register_provider_depends_on_last_entity_only_witness :
  qry_entities two_entity_registration =
    [("Host", KwName "hostname")] ++ [("IpAddress", KwName "ip")] ∧
  qry_entities batch_registration = [] ++ [("IpAddress", KwName "ip")] ∧
  register_provider no_close_matches two_entity_registration sample_state =
    register_provider no_close_matches batch_registration sample_state.
Proof.
  split; [reflexivity|]. split; [reflexivity|].
  apply (register_provider_depends_on_last_entity_only no_close_matches
           two_entity_registration batch_registration
           [("Host", KwName "hostname")] [] "IpAddress" (KwName "ip")
           (KwName "ip")); reflexivity.
Defined.

Lemma register_provider_resolved_entity_raises_NameError_witness :
  qry_entities two_entity_registration =
    [("Host", KwName "hostname")] ++ [("IpAddress", KwName "ip")] ∧
  entities sample_state !! "IpAddress" = Some (PyClass "IpAddress") ∧
  truthy (PyClass "IpAddress") = true ∧
  register_provider no_close_matches two_entity_registration sample_state =
    (Raises (NameError ["name 'set_attr' is not defined"]), sample_state).
Proof.
  split; [reflexivity|]. split; [reflexivity|]. split; [reflexivity|].
  apply (register_provider_resolved_entity_raises_NameError no_close_matches
           two_entity_registration [("Host", KwName "hostname")] "IpAddress"
           (KwName "ip") (PyClass "IpAddress")); reflexivity.
Defined.

(** "Host" does not begin with two underscores and is bound to a class. *)
Lemma entity_class_returns_iff_witness :
  is_special_name "Host" = false ∧
  (_entity_class no_close_matches "Host" sample_state =
     (Returns (PyClass "Host"), sample_state) ↔
   entities sample_state !! "Host" = Some (PyClass "Host") ∧
   truthy (PyClass "Host") = true ∧ sample_state = sample_state).
Proof.
  split; [reflexivity|].
  apply (entity_class_returns_iff no_close_matches "Host" (PyClass "Host")
           sample_state sample_state).
  reflexivity.
Defined.
